(** * Character_LCD_RGB_I2C: the RGB character LCD shield behind an MCP23017

    A shallow embedding of [adafruit_character_lcd/character_lcd_rgb_i2c.py].
    The class has a constructor that asks a GPIO expander for pin handles and
    hands ten of them to the base class [Character_LCD_RGB], and five
    read-only properties, one per push button.

    The expander, its pin handles and the base class live in other modules.
    They are modelled as collaborators: functions over an abstract world that
    return a value or raise.  The driver code is written in a small monad that
    threads the instance dictionary and the world and records every attribute
    store and every collaborator call, with its outcome, in program order. *)

From Stdlib Require Import ZArith.
From stdpp Require Import gmap strings list.

#[local] Set Warnings "-register-all".

(** ** Exceptions and outcomes *)

(** The exceptions that can reach a caller of the driver.  [NameError],
    [AttributeError] and [ImportError] are raised by the Python runtime;
    [ConfigurationError] and [TransportError] are the two failure classes the
    design document names for collaborators; [OtherError] is any other
    exception class a collaborator may raise. *)
Inductive exn : Type :=
| NameError (name : string)
| UnboundLocalError (name : string)
| AttributeError (name : string)
| ImportError (name : string)
| ConfigurationError
| TransportError
| OtherError (cls : string).

Inductive outcome (A : Type) : Type :=
| Return (a : A)
| Raise (e : exn).
Arguments Return {A} a.
Arguments Raise {A} e.

Definition outcome_map {A B : Type} (f : A -> B) (r : outcome A) : outcome B :=
  match r with
  | Return a => Return (f a)
  | Raise e => Raise e
  end.


(** ** Module namespace *)

(** What a module-level name can be bound to. *)
Inductive pyobj : Type :=
| PyModule (name : string)
| PyClass (name : string)
| PyStr (s : string).

(** The names the module binds at top level: the two imports, the two
    dunder strings and the class itself.  A global lookup that misses here
    falls back to the builtins, none of which is called [MCP2317]; the
    namespace [g] of [load_name] stands for both. *)
Definition module_globals : gmap string pyobj :=
  <["Character_LCD_RGB_I2C" := PyClass "Character_LCD_RGB_I2C"]>
  (<["__repo__" := PyStr "https://github.com/adafruit/Adafruit_CircuitPython_CharLCD.git"]>
  (<["__version__" := PyStr "0.0.0-auto.0"]>
  (<["Character_LCD_RGB" := PyClass "Character_LCD_RGB"]>
  (<["digitalio" := PyModule "digitalio"]> ∅)))).

(** The names that are local to [__init__]: its parameters and every name
    the body binds (the function-level import and the assignment to [mcp]). *)
Definition init_locals : list string :=
  ["self"; "i2c"; "columns"; "lines"; "MCP23017"; "mcp"].

(** Reading a name inside [__init__].  A name of [init_locals] is read from
    the frame, which holds the class objects bound so far; any other name is
    read from the global namespace [g]. *)
Definition load_name (frame g : gmap string pyobj) (name : string) : outcome pyobj :=
  if bool_decide (name ∈ init_locals) then
    match frame !! name with
    | Some v => Return v
    | None => Raise (UnboundLocalError name)
    end
  else
    match g !! name with
    | Some v => Return v
    | None => Raise (NameError name)
    end.

(** ** Instance attributes *)

(** The values this class stores on the instance: a pin handle, or the list
    of button handles. *)
Inductive pyval (Pin : Type) : Type :=
| VPin (p : Pin)
| VList (l : list (pyval Pin)).
Arguments VPin {Pin} p.
Arguments VList {Pin} l.

(** [digitalio.Pull] *)
Inductive pull_mode : Type := PullUp | PullDown.

Section Driver.

Context {Bus Expander Pin W : Type}.

(** ** Execution trace *)

(** One entry per attribute store and per collaborator call.  A call is
    recorded with what it returned or raised. *)
Inductive event : Type :=
| EvImport (module name : string) (r : outcome pyobj)
| EvCall (cls : pyobj) (i2c : Bus) (r : outcome Expander)
| EvGetPin (mcp : Expander) (n : Z) (r : outcome Pin)
| EvRead (p : Pin) (r : outcome bool)
| EvWrite (p : Pin) (b : bool) (r : outcome unit)
| EvSwitchToInput (p : Pin) (pull : option pull_mode) (r : outcome unit)
| EvSwitchToOutput (p : Pin) (b : bool) (r : outcome unit)
| EvSetAttr (name : string) (v : pyval Pin)
| EvSuperInit (a1 a2 a3 a4 a5 a6 : Pin) (columns lines : Z)
              (a9 a10 a11 a12 : Pin) (r : outcome unit).

(** ** Collaborators *)

(** The code outside this module, as functions over the world [W]:
    the import machinery, calling a class with the bus, [mcp.get_pin],
    the pin handle's [value] getter and setter, [switch_to_input],
    [switch_to_output], and [Character_LCD_RGB.__init__], which receives
    the instance dictionary and may store into it. *)
Record collaborators : Type := {
  co_import : string -> string -> W -> outcome pyobj * W;
  co_call : pyobj -> Bus -> W -> outcome Expander * W;
  co_get_pin : Expander -> Z -> W -> outcome Pin * W;
  co_value : Pin -> W -> outcome bool * W;
  co_set_value : Pin -> bool -> W -> outcome unit * W;
  co_switch_to_input : Pin -> option pull_mode -> W -> outcome unit * W;
  co_switch_to_output : Pin -> bool -> W -> outcome unit * W;
  co_super_init :
    gmap string (pyval Pin) ->
    Pin -> Pin -> Pin -> Pin -> Pin -> Pin -> Z -> Z ->
    Pin -> Pin -> Pin -> Pin -> W ->
    outcome unit * gmap string (pyval Pin) * W
}.

Variable C : collaborators.

(** ** The monad *)

Record state : Type := {
  self : gmap string (pyval Pin);
  world : W
}.

Definition M (A : Type) : Type := state -> outcome A * state * list event.

Definition ret {A : Type} (a : A) : M A := fun st => (Return a, st, []).

Definition raise {A : Type} (e : exn) : M A := fun st => (Raise e, st, []).

Definition bind {A B : Type} (m : M A) (k : A -> M B) : M B :=
  fun st =>
    match m st with
    | (Return a, st1, ev1) =>
        match k a st1 with
        | (r, st2, ev2) => (r, st2, ev1 ++ ev2)
        end
    | (Raise e, st1, ev1) => (Raise e, st1, ev1)
    end.

Notation "x <- m ;; k" := (bind m (fun x => k))
  (at level 100, m at next level, right associativity).

Definition lift {A : Type} (r : outcome A) : M A :=
  fun st => (r, st, []).

(** A collaborator call: run it on the world, log it with its outcome. *)
Definition call {A : Type} (f : W -> outcome A * W) (log : outcome A -> event) : M A :=
  fun st =>
    match f (world st) with
    | (r, w) => (r, {| self := self st; world := w |}, [log r])
    end.

(** [self.name = v] *)
Definition setattr (name : string) (v : pyval Pin) : M unit :=
  fun st =>
    (Return tt, {| self := <[name := v]> (self st); world := world st |},
     [EvSetAttr name v]).

(** [self.name] *)
Definition getattr (name : string) : M (pyval Pin) :=
  fun st =>
    match self st !! name with
    | Some v => (Return v, st, [])
    | None => (Raise (AttributeError name), st, [])
    end.

(** ** Collaborator API seen from the driver *)

Definition import_from (module name : string) : M pyobj :=
  call (co_import C module name) (EvImport module name).

Definition call_class (cls : pyobj) (i2c : Bus) : M Expander :=
  call (co_call C cls i2c) (EvCall cls i2c).

Definition get_pin (mcp : Expander) (n : Z) : M Pin :=
  call (co_get_pin C mcp n) (EvGetPin mcp n).

(** [obj.value]: a pin handle reads its level; a list has no such
    attribute. *)
Definition value (obj : pyval Pin) : M bool :=
  match obj with
  | VPin p => call (co_value C p) (EvRead p)
  | VList _ => raise (AttributeError "value")
  end.

Definition set_value (p : Pin) (b : bool) : M unit :=
  call (co_set_value C p b) (EvWrite p b).

Definition switch_to_input (p : Pin) (pull : option pull_mode) : M unit :=
  call (co_switch_to_input C p pull) (EvSwitchToInput p pull).

Definition switch_to_output (p : Pin) (b : bool) : M unit :=
  call (co_switch_to_output C p b) (EvSwitchToOutput p b).

(** [super().__init__(a1, ..., a6, columns, lines, a9, ..., a12)] *)
Definition super_init (a1 a2 a3 a4 a5 a6 : Pin) (columns lines : Z)
    (a9 a10 a11 a12 : Pin) : M unit :=
  fun st =>
    match co_super_init C (self st) a1 a2 a3 a4 a5 a6 columns lines
            a9 a10 a11 a12 (world st) with
    | (r, d, w) =>
        (r, {| self := d; world := w |},
         [EvSuperInit a1 a2 a3 a4 a5 a6 columns lines a9 a10 a11 a12 r])
    end.

(** ** The constructor *)

(** The body of [__init__] once [mcp] is bound: the five button
    assignments, the [_buttons] list, and the call of the base
    constructor, whose arguments are evaluated left to right. *)
Definition init_pins (mcp : Expander) (columns lines : Z) : M unit :=
  p <- get_pin mcp 4 ;; _ <- setattr "_left_button" (VPin p) ;;
  p <- get_pin mcp 3 ;; _ <- setattr "_up_button" (VPin p) ;;
  p <- get_pin mcp 2 ;; _ <- setattr "_down_button" (VPin p) ;;
  p <- get_pin mcp 1 ;; _ <- setattr "_right_button" (VPin p) ;;
  p <- get_pin mcp 0 ;; _ <- setattr "_select_button" (VPin p) ;;
  b1 <- getattr "_left_button" ;;
  b2 <- getattr "_up_button" ;;
  b3 <- getattr "_down_button" ;;
  b4 <- getattr "_right_button" ;;
  b5 <- getattr "_select_button" ;;
  _ <- setattr "_buttons" (VList [b1; b2; b3; b4; b5]) ;;
  a1 <- get_pin mcp 15 ;;
  a2 <- get_pin mcp 13 ;;
  a3 <- get_pin mcp 12 ;;
  a4 <- get_pin mcp 11 ;;
  a5 <- get_pin mcp 10 ;;
  a6 <- get_pin mcp 9 ;;
  a9 <- get_pin mcp 6 ;;
  a10 <- get_pin mcp 7 ;;
  a11 <- get_pin mcp 8 ;;
  a12 <- get_pin mcp 14 ;;
  super_init a1 a2 a3 a4 a5 a6 columns lines a9 a10 a11 a12.

(** [__init__(self, i2c, columns, lines)], run in the module namespace
    [g].  The import binds the local name [MCP23017]; the next statement
    reads the name [MCP2317] and calls what it finds with [i2c]. *)
Definition __init__ (g : gmap string pyobj) (i2c : Bus) (columns lines : Z) : M unit :=
  MCP23017 <- import_from "adafruit_mcp230xx.mcp23017" "MCP23017" ;;
  cls <- lift (load_name (<["MCP23017" := MCP23017]> ∅) g "MCP2317") ;;
  mcp <- call_class cls i2c ;;
  init_pins mcp columns lines.

(** ** The button properties *)

Definition left_button : M bool :=
  pin <- getattr "_left_button" ;; v <- value pin ;; ret (negb v).

Definition up_button : M bool :=
  pin <- getattr "_up_button" ;; v <- value pin ;; ret (negb v).

Definition down_button : M bool :=
  pin <- getattr "_down_button" ;; v <- value pin ;; ret (negb v).

Definition right_button : M bool :=
  pin <- getattr "_right_button" ;; v <- value pin ;; ret (negb v).

Definition select_button : M bool :=
  pin <- getattr "_select_button" ;; v <- value pin ;; ret (negb v).

(** The five properties, indexed by button. *)
Inductive button : Type := Left | Up | Down | Right | Select.

Definition button_attr (b : button) : string :=
  match b with
  | Left => "_left_button"
  | Up => "_up_button"
  | Down => "_down_button"
  | Right => "_right_button"
  | Select => "_select_button"
  end.

Definition button_property (b : button) : M bool :=
  match b with
  | Left => left_button
  | Up => up_button
  | Down => down_button
  | Right => right_button
  | Select => select_button
  end.

(** ** Reading a run *)

Definition result {A : Type} (m : M A) (st : state) : outcome A := (m st).1.1.
Definition final {A : Type} (m : M A) (st : state) : state := (m st).1.2.
Definition events {A : Type} (m : M A) (st : state) : list event := (m st).2.

(** Pin indices asked of the expander, in order, whatever the answer. *)
Definition requested (evs : list event) : list Z :=
  omap (fun ev => match ev with EvGetPin _ n _ => Some n | _ => None end) evs.

(** Handles the expander returned, in order. *)
Definition acquired (evs : list event) : list Pin :=
  omap (fun ev => match ev with EvGetPin _ _ (Return h) => Some h | _ => None end) evs.

(** Attribute stores, in order. *)
Definition stored (evs : list event) : list (string * pyval Pin) :=
  omap (fun ev => match ev with EvSetAttr a v => Some (a, v) | _ => None end) evs.

(** Handles stored under the attribute of one of the five buttons. *)
Definition button_handles (evs : list event) : list Pin :=
  omap (fun ev =>
          match ev with
          | EvSetAttr a (VPin h) =>
              if bool_decide (a ∈ button_attr <$> [Left; Up; Down; Right; Select])
              then Some h else None
          | _ => None
          end) evs.

(** Handles read through [value]. *)
Definition reads (evs : list event) : list Pin :=
  omap (fun ev => match ev with EvRead p _ => Some p | _ => None end) evs.

(** Handles written through [value = b]. *)
Definition writes (evs : list event) : list Pin :=
  omap (fun ev => match ev with EvWrite p _ _ => Some p | _ => None end) evs.

(** Handles whose direction or pull was set. *)
Definition configured (evs : list event) : list Pin :=
  omap (fun ev =>
          match ev with
          | EvSwitchToInput p _ _ | EvSwitchToOutput p _ _ => Some p
          | _ => None
          end) evs.

(** Handles passed to the base constructor, in positional order. *)
Definition forwarded (evs : list event) : list Pin :=
  mjoin (omap (fun ev =>
          match ev with
          | EvSuperInit a1 a2 a3 a4 a5 a6 _ _ a9 a10 a11 a12 _ =>
              Some [a1; a2; a3; a4; a5; a6; a9; a10; a11; a12]
          | _ => None
          end) evs).

(** Calls of the base constructor: the geometry passed and the outcome. *)
Definition super_calls (evs : list event) : list (Z * Z * outcome unit) :=
  omap (fun ev =>
          match ev with
          | EvSuperInit _ _ _ _ _ _ c l _ _ _ _ r => Some (c, l, r)
          | _ => None
          end) evs.



(** The pin index whose handle lines 89 to 93 assign to each button. *)
Definition button_pin (b : button) : Z :=
  match b with
  | Left => 4
  | Up => 3
  | Down => 2
  | Right => 1
  | Select => 0
  end.

(** The instance dictionary after a sequence of attribute stores. *)
Definition apply_stores (l : list (string * pyval Pin))
    (d : gmap string (pyval Pin)) : gmap string (pyval Pin) :=
  foldl (fun acc av => <[av.1 := av.2]> acc) d l.

(** The fifteen roles a pin handle can play: one of the five buttons, or a
    pin argument of the base constructor, named by its position in the
    call (1 to 6 and 9 to 12; positions 7 and 8 are the geometry). *)
Inductive role : Type :=
| ButtonRole (b : button)
| BaseArg (position : nat).

Definition all_roles : list role :=
  [ButtonRole Left; ButtonRole Up; ButtonRole Down; ButtonRole Right;
   ButtonRole Select;
   BaseArg 1; BaseArg 2; BaseArg 3; BaseArg 4; BaseArg 5; BaseArg 6;
   BaseArg 9; BaseArg 10; BaseArg 11; BaseArg 12].

(** The pin index lines 89 to 109 request for each role. *)
Definition role_pin (rho : role) : option Z :=
  match rho with
  | ButtonRole b => Some (button_pin b)
  | BaseArg 1 => Some 15
  | BaseArg 2 => Some 13
  | BaseArg 3 => Some 12
  | BaseArg 4 => Some 11
  | BaseArg 5 => Some 10
  | BaseArg 6 => Some 9
  | BaseArg 9 => Some 6
  | BaseArg 10 => Some 7
  | BaseArg 11 => Some 8
  | BaseArg 12 => Some 14
  | BaseArg _ => None
  end%Z.

(** The handle each role was given, read off the trace: a pin handle
    stored under the attribute of a button, a pin argument of a call of
    the base constructor. *)
Definition role_handles (evs : list event) : list (role * Pin) :=
  evs ≫= (fun ev =>
    match ev with
    | EvSetAttr a (VPin h) =>
        (fun b => (ButtonRole b, h))
          <$> filter (fun b => button_attr b = a) [Left; Up; Down; Right; Select]
    | EvSuperInit a1 a2 a3 a4 a5 a6 _ _ a9 a10 a11 a12 _ =>
        [(BaseArg 1, a1); (BaseArg 2, a2); (BaseArg 3, a3); (BaseArg 4, a4);
         (BaseArg 5, a5); (BaseArg 6, a6); (BaseArg 9, a9); (BaseArg 10, a10);
         (BaseArg 11, a11); (BaseArg 12, a12)]
    | _ => []
    end).

(** The pin index each acquired handle was returned for. *)
Definition index_handles (evs : list event) : list (Z * Pin) :=
  omap (fun ev =>
          match ev with
          | EvGetPin _ n (Return h) => Some (n, h)
          | _ => None
          end) evs.

(** Role [rho] is bound to pin index [n] in a run: the handle the role was
    given is one the expander returned for index [n]. *)
Definition bound (evs : list event) (rho : role) (n : Z) : Prop :=
  exists h : Pin, (n, h) ∈ index_handles evs /\ (rho, h) ∈ role_handles evs.

End Driver.

(** ** A simulated shield *)

(** A concrete set of collaborators on which the driver can be run: pin
    handles are the pin indices themselves, the world is the electrical
    level on each pin, the expander hands out the sixteen pins 0..15, and
    the base constructor accepts what it is given. *)
Module Shield.

Definition levels : Type := Z -> bool.

Definition plate : @collaborators unit unit Z levels := {|
  co_import := fun _ name w => (Return (PyClass name), w);
  co_call := fun _ _ w => (Return tt, w);
  co_get_pin := fun _ n w =>
    (if (0 <=? n)%Z && (n <=? 15)%Z then Return n
     else Raise (OtherError "AssertionError"), w);
  co_value := fun p w => (Return (w p), w);
  co_set_value := fun p b w => (Return tt, fun q => if (q =? p)%Z then b else w q);
  co_switch_to_input := fun _ _ w => (Return tt, w);
  co_switch_to_output := fun p b w => (Return tt, fun q => if (q =? p)%Z then b else w q);
  co_super_init := fun d _ _ _ _ _ _ _ _ _ _ _ _ w => (Return tt, d, w)
|}.

(** The same shield on a bus where every read fails. *)
Definition broken_bus : @collaborators unit unit Z levels := {|
  co_import := co_import plate;
  co_call := co_call plate;
  co_get_pin := co_get_pin plate;
  co_value := fun _ w => (Raise TransportError, w);
  co_set_value := co_set_value plate;
  co_switch_to_input := co_switch_to_input plate;
  co_switch_to_output := co_switch_to_output plate;
  co_super_init := co_super_init plate
|}.

(** Every pin high: no button pressed. *)
Definition idle : levels := fun _ => true.

(** Pin 4 pulled low: the left button pressed. *)
Definition left_pressed : levels := fun p => negb (p =? 4)%Z.

(** An instance before construction. *)
Definition fresh (w : levels) : @state Z levels := {| self := ∅; world := w |}.

(** An instance after lines 89 to 109 have run on it. *)
Definition built (w : levels) : @state Z levels :=
  final (init_pins plate tt 16 2) (fresh w).

(** The same shield behind an eight-pin expander: only pins 0..7 exist. *)
Definition eight_pins : @collaborators unit unit Z levels := {|
  co_import := co_import plate;
  co_call := co_call plate;
  co_get_pin := fun _ n w =>
    (if (0 <=? n)%Z && (n <=? 7)%Z then Return n
     else Raise (OtherError "AssertionError"), w);
  co_value := co_value plate;
  co_set_value := co_set_value plate;
  co_switch_to_input := co_switch_to_input plate;
  co_switch_to_output := co_switch_to_output plate;
  co_super_init := co_super_init plate
|}.

(** A bus on which no expander answers: creating one fails. *)
Definition no_expander : @collaborators unit unit Z levels := {|
  co_import := co_import plate;
  co_call := fun _ _ w => (Raise TransportError, w);
  co_get_pin := co_get_pin plate;
  co_value := co_value plate;
  co_set_value := co_set_value plate;
  co_switch_to_input := co_switch_to_input plate;
  co_switch_to_output := co_switch_to_output plate;
  co_super_init := co_super_init plate
|}.

(** The module namespace with the name the constructor reads bound by hand
    to the expander class. *)
Definition patched_globals : gmap string pyobj :=
  <["MCP2317" := PyClass "MCP23017"]> module_globals.





End Shield.

Section DriverFacts.

Context {Bus Expander Pin W : Type}.

Variable C : @collaborators Bus Expander Pin W.

(** ** Stepping through the constructor *)

Ltac run_step :=
  match goal with
  | |- context [co_get_pin ?co ?m ?n ?w] =>
      let h := fresh "h" in let e := fresh "e" in let w' := fresh "w" in
      destruct (co_get_pin co m n w) as [[h|e] w'] eqn:?; cbn
  | |- context [co_super_init ?co ?d ?a1 ?a2 ?a3 ?a4 ?a5 ?a6 ?c ?l ?a9 ?a10 ?a11 ?a12 ?w] =>
      let r := fresh "r" in let d' := fresh "d" in let w' := fresh "w" in
      destruct (co_super_init co d a1 a2 a3 a4 a5 a6 c l a9 a10 a11 a12 w)
        as [[r d'] w'] eqn:?; cbn
  | |- context [(<[_ := _]> _) !! _] =>
      rewrite ?lookup_insert_ne by discriminate; rewrite lookup_insert_eq; cbn
  end.

Ltac walk_init :=
  unfold result, final, events, init_pins, bind, get_pin, call, setattr,
    getattr, super_init;
  cbn; repeat run_step.

(** A run of the constructor body that returns has made the fifteen
    requests, the six stores and the base call below, and nothing else. *)
Lemma init_pins_returns mcp columns lines st :
  result (init_pins C mcp columns lines) st = Return tt ->
  exists l u d r s a1 a2 a3 a4 a5 a6 a9 a10 a11 a12,
    events (init_pins C mcp columns lines) st =
      [ EvGetPin mcp 4 (Return l); EvSetAttr "_left_button" (VPin l);
        EvGetPin mcp 3 (Return u); EvSetAttr "_up_button" (VPin u);
        EvGetPin mcp 2 (Return d); EvSetAttr "_down_button" (VPin d);
        EvGetPin mcp 1 (Return r); EvSetAttr "_right_button" (VPin r);
        EvGetPin mcp 0 (Return s); EvSetAttr "_select_button" (VPin s);
        EvSetAttr "_buttons" (VList [VPin l; VPin u; VPin d; VPin r; VPin s]);
        EvGetPin mcp 15 (Return a1); EvGetPin mcp 13 (Return a2);
        EvGetPin mcp 12 (Return a3); EvGetPin mcp 11 (Return a4);
        EvGetPin mcp 10 (Return a5); EvGetPin mcp 9 (Return a6);
        EvGetPin mcp 6 (Return a9); EvGetPin mcp 7 (Return a10);
        EvGetPin mcp 8 (Return a11); EvGetPin mcp 14 (Return a12);
        EvSuperInit a1 a2 a3 a4 a5 a6 columns lines a9 a10 a11 a12 (Return tt) ].
Proof.
  walk_init; try discriminate.
  intros ->. by repeat eexists.
Qed.

(** Every run of the constructor body, returning or not, asks for a
    prefix of one fixed sequence of pin indices. *)
Lemma init_pins_requests_prefix mcp columns lines st :
  exists k : nat,
    requested (events (init_pins C mcp columns lines) st) =
      take k [4; 3; 2; 1; 0; 15; 13; 12; 11; 10; 9; 6; 7; 8; 14]%Z.
Proof.
  walk_init;
    first [ by exists 0%nat | by exists 1%nat | by exists 2%nat
          | by exists 3%nat | by exists 4%nat | by exists 5%nat
          | by exists 6%nat | by exists 7%nat | by exists 8%nat
          | by exists 9%nat | by exists 10%nat | by exists 11%nat
          | by exists 12%nat | by exists 13%nat | by exists 14%nat
          | by exists 15%nat ].
Qed.

(** A button property on an instance whose attribute holds a pin handle:
    one read of that handle, the negated answer, the instance untouched. *)
Lemma button_property_run b st p :
  self st !! button_attr b = Some (VPin p) ->
  button_property C b st =
    (outcome_map negb (co_value C p (world st)).1,
     {| self := self st; world := (co_value C p (world st)).2 |},
     [EvRead p (co_value C p (world st)).1]).
Proof.
  intros Hattr.
  destruct b; cbn in Hattr;
    unfold button_property, left_button, up_button, down_button,
      right_button, select_button, bind, getattr, value, call, ret;
    rewrite Hattr; cbn;
    destruct (co_value C p (world st)) as [[v|e] w]; reflexivity.
Qed.

(** No button property stores an attribute, whatever the instance holds. *)
Lemma button_property_frame b st :
  self (final (button_property C b) st) = self st
  /\ stored (events (button_property C b) st) = []
  /\ writes (events (button_property C b) st) = []
  /\ configured (events (button_property C b) st) = [].
Proof.
  unfold final, events.
  destruct b;
    unfold button_property, left_button, up_button, down_button,
      right_button, select_button, bind, getattr, value, call, ret, raise;
    (destruct (self st !! _) as [[p|l]|]; cbn; [| done | done]);
    destruct (co_value C p (world st)) as [[v|e] w]; done.
Qed.

(** When the name the constructor calls is bound in the namespace and the
    expander is created, the constructor continues with [init_pins]. *)
Lemma init_reaches_pins g i2c columns lines st cls0 w1 cls mcp w2 :
  co_import C "adafruit_mcp230xx.mcp23017" "MCP23017" (world st) = (Return cls0, w1) ->
  g !! "MCP2317" = Some cls ->
  co_call C cls i2c w1 = (Return mcp, w2) ->
  result (__init__ C g i2c columns lines) st =
    result (init_pins C mcp columns lines) {| self := self st; world := w2 |}
  /\ events (__init__ C g i2c columns lines) st =
       EvImport "adafruit_mcp230xx.mcp23017" "MCP23017" (Return cls0)
       :: EvCall cls i2c (Return mcp)
       :: events (init_pins C mcp columns lines) {| self := self st; world := w2 |}.
Proof.
  intros Himp Hg Hcall.
  unfold result, events, __init__, bind, import_from, call_class, call, lift.
  rewrite Himp. cbn [fst snd world self].
  assert (Hname : load_name (<["MCP23017":=cls0]> ∅) g "MCP2317" = Return cls).
  { unfold load_name. rewrite Hg. reflexivity. }
  rewrite Hname. cbn [fst snd world self]. rewrite Hcall.
  by destruct (init_pins C mcp columns lines _) as [[r st2] ev].
Qed.

(** Pairs with distinct first components are a function, pairs with
    distinct second components are injective. *)
Lemma pairs_functional {A B : Type} (l : list (A * B)) (x : A) (y1 y2 : B) :
  NoDup (l.*1) -> (x, y1) ∈ l -> (x, y2) ∈ l -> y1 = y2.
Proof.
  induction l as [|[a b] l IH]; csimpl; intros Hnd H1 H2.
  - by apply elem_of_nil in H1.
  - apply NoDup_cons in Hnd as [Hnot Hnd].
    apply elem_of_cons in H1 as [H1|H1]; apply elem_of_cons in H2 as [H2|H2].
    + congruence.
    + exfalso. apply Hnot. injection H1 as -> ->.
      by apply (list_elem_of_fmap_2 fst l (a, y2)).
    + exfalso. apply Hnot. injection H2 as -> ->.
      by apply (list_elem_of_fmap_2 fst l (a, y1)).
    + by apply IH.
Qed.

Lemma pairs_injective {A B : Type} (l : list (A * B)) (x1 x2 : A) (y : B) :
  NoDup (l.*2) -> (x1, y) ∈ l -> (x2, y) ∈ l -> x1 = x2.
Proof.
  induction l as [|[a b] l IH]; csimpl; intros Hnd H1 H2.
  - by apply elem_of_nil in H1.
  - apply NoDup_cons in Hnd as [Hnot Hnd].
    apply elem_of_cons in H1 as [H1|H1]; apply elem_of_cons in H2 as [H2|H2].
    + congruence.
    + exfalso. apply Hnot. injection H1 as -> ->.
      by apply (list_elem_of_fmap_2 snd l (x2, b)).
    + exfalso. apply Hnot. injection H2 as -> ->.
      by apply (list_elem_of_fmap_2 snd l (x1, b)).
    + by apply IH.
Qed.

(** A run of the constructor body that reaches the call of the base
    constructor, whatever that call answers, has made the fifteen requests
    and the six stores before it. *)
Lemma init_pins_reaches_base mcp columns lines st :
  result (init_pins C mcp columns lines) st = Return tt
  \/ super_calls (events (init_pins C mcp columns lines) st) <> [] ->
  exists l u d r s a1 a2 a3 a4 a5 a6 a9 a10 a11 a12,
    events (init_pins C mcp columns lines) st =
      [ EvGetPin mcp 4 (Return l); EvSetAttr "_left_button" (VPin l);
        EvGetPin mcp 3 (Return u); EvSetAttr "_up_button" (VPin u);
        EvGetPin mcp 2 (Return d); EvSetAttr "_down_button" (VPin d);
        EvGetPin mcp 1 (Return r); EvSetAttr "_right_button" (VPin r);
        EvGetPin mcp 0 (Return s); EvSetAttr "_select_button" (VPin s);
        EvSetAttr "_buttons" (VList [VPin l; VPin u; VPin d; VPin r; VPin s]);
        EvGetPin mcp 15 (Return a1); EvGetPin mcp 13 (Return a2);
        EvGetPin mcp 12 (Return a3); EvGetPin mcp 11 (Return a4);
        EvGetPin mcp 10 (Return a5); EvGetPin mcp 9 (Return a6);
        EvGetPin mcp 6 (Return a9); EvGetPin mcp 7 (Return a10);
        EvGetPin mcp 8 (Return a11); EvGetPin mcp 14 (Return a12);
        EvSuperInit a1 a2 a3 a4 a5 a6 columns lines a9 a10 a11 a12
          (result (init_pins C mcp columns lines) st) ].
Proof.
  walk_init; try (intros [Hret | Hcalls]; [discriminate Hret | by destruct Hcalls]).
  intros _. by repeat eexists.
Qed.

(** No run of the constructor body acquires more than fifteen handles. *)
Lemma init_pins_acquires_at_most mcp columns lines st :
  length (acquired (events (init_pins C mcp columns lines) st)) <= 15.
Proof. walk_init; cbn; lia. Qed.


(** The three ways a run of the constructor can go before line 89: the
    import raises or the name is unbound; the call of the class raises; or
    an expander is created. *)
Lemma init_run g i2c columns lines st :
  (exists e r0,
     (result (__init__ C g i2c columns lines) st) = Raise e
     /\ (events (__init__ C g i2c columns lines) st) = [EvImport "adafruit_mcp230xx.mcp23017" "MCP23017" r0]
     /\ world (final (__init__ C g i2c columns lines) st)
          = (co_import C "adafruit_mcp230xx.mcp23017" "MCP23017" (world st)).2)
  \/ (exists e cls0 cls w1,
        co_import C "adafruit_mcp230xx.mcp23017" "MCP23017" (world st) = (Return cls0, w1)
        /\ g !! "MCP2317" = Some cls
        /\ (result (__init__ C g i2c columns lines) st) = Raise e
        /\ (events (__init__ C g i2c columns lines) st) = [EvImport "adafruit_mcp230xx.mcp23017" "MCP23017" (Return cls0); EvCall cls i2c (Raise e)]
        /\ world (final (__init__ C g i2c columns lines) st) = (co_call C cls i2c w1).2)
  \/ (exists cls0 cls mcp w1 w2,
        co_import C "adafruit_mcp230xx.mcp23017" "MCP23017" (world st) = (Return cls0, w1)
        /\ g !! "MCP2317" = Some cls
        /\ co_call C cls i2c w1 = (Return mcp, w2)
        /\ final (__init__ C g i2c columns lines) st =
             final (init_pins C mcp columns lines) {| self := self st; world := w2 |}).
Proof.
  destruct (co_import C "adafruit_mcp230xx.mcp23017" "MCP23017" (world st)) as [[cls0|e] w1] eqn:Himp.
  2: { left. exists e, (Raise e).
       unfold result, events, final, __init__, bind, import_from, call.
       rewrite Himp. done. }
  assert (Hname : load_name (<["MCP23017":=cls0]> ∅) g "MCP2317" =
                  match g !! "MCP2317" with
                  | Some v => Return v
                  | None => Raise (NameError "MCP2317")
                  end) by reflexivity.
  destruct (g !! "MCP2317") as [cls|] eqn:Hg.
  2: { left. exists (NameError "MCP2317"), (Return cls0).
       unfold result, events, final, __init__, bind, import_from, call, lift.
       rewrite Himp. cbn [fst snd world self]. rewrite Hname. done. }
  destruct (co_call C cls i2c w1) as [[mcp|e] w2] eqn:Hcall.
  - right. right. exists cls0, cls, mcp, w1, w2.
    split; [done |]. split; [done |]. split; [done |].
    unfold final, __init__, bind, import_from, call_class, call, lift.
    rewrite Himp. cbn [fst snd world self]. rewrite Hname. cbn [fst snd world self].
    rewrite Hcall.
    by destruct (init_pins C mcp columns lines _) as [[r st2] ev].
  - right. left. exists e, cls0, cls, w1.
    split; [done |]. split; [done |].
    unfold result, events, final, __init__, bind, import_from, call_class, call, lift.
    rewrite Himp. cbn [fst snd world self]. rewrite Hname. cbn [fst snd world self].
    rewrite Hcall. done.
Qed.

(** A run of the constructor that returns, or that reaches the call of
    the base constructor, is the import, the creation of the expander and a
    complete run of lines 89 to 109. *)
Lemma init_full_run g i2c columns lines st :
  (result (__init__ C g i2c columns lines) st) = Return tt \/ super_calls (events (__init__ C g i2c columns lines) st) <> [] ->
  exists cls0 cls mcp l u d r s a1 a2 a3 a4 a5 a6 a9 a10 a11 a12,
    (events (__init__ C g i2c columns lines) st) =
      [ EvImport "adafruit_mcp230xx.mcp23017" "MCP23017" (Return cls0);
        EvCall cls i2c (Return mcp);
        EvGetPin mcp 4 (Return l); EvSetAttr "_left_button" (VPin l);
        EvGetPin mcp 3 (Return u); EvSetAttr "_up_button" (VPin u);
        EvGetPin mcp 2 (Return d); EvSetAttr "_down_button" (VPin d);
        EvGetPin mcp 1 (Return r); EvSetAttr "_right_button" (VPin r);
        EvGetPin mcp 0 (Return s); EvSetAttr "_select_button" (VPin s);
        EvSetAttr "_buttons" (VList [VPin l; VPin u; VPin d; VPin r; VPin s]);
        EvGetPin mcp 15 (Return a1); EvGetPin mcp 13 (Return a2);
        EvGetPin mcp 12 (Return a3); EvGetPin mcp 11 (Return a4);
        EvGetPin mcp 10 (Return a5); EvGetPin mcp 9 (Return a6);
        EvGetPin mcp 6 (Return a9); EvGetPin mcp 7 (Return a10);
        EvGetPin mcp 8 (Return a11); EvGetPin mcp 14 (Return a12);
        EvSuperInit a1 a2 a3 a4 a5 a6 columns lines a9 a10 a11 a12
          (result (__init__ C g i2c columns lines) st) ].
Proof.
  destruct (init_run g i2c columns lines st)
    as [(e & r0 & Hres & Hev & _)
       | [(e & cls0 & cls & w1 & _ & _ & Hres & Hev & _)
         | (cls0 & cls & mcp & w1 & w2 & Himp & Hg & Hcall & _)]].
  - rewrite Hres, Hev. intros [Hret | Hcalls]; [discriminate Hret | by destruct Hcalls].
  - rewrite Hres, Hev. intros [Hret | Hcalls]; [discriminate Hret | by destruct Hcalls].
  - destruct (init_reaches_pins g i2c columns lines st cls0 w1 cls mcp w2 Himp Hg Hcall)
      as [Hres Hev].
    rewrite Hres, Hev. cbn [super_calls omap list_omap].
    intros Hreach.
    destruct (init_pins_reaches_base mcp columns lines _ Hreach)
      as (l & u & d & r & s & a1 & a2 & a3 & a4 & a5 & a6 & a9 & a10 & a11 & a12 & Hbody).
    exists cls0, cls, mcp, l, u, d, r, s, a1, a2, a3, a4, a5, a6, a9, a10, a11, a12.
    by rewrite Hbody.
Qed.

(** Every run of the constructor requests a prefix of one fixed sequence
    of pin indices. *)
Lemma init_requests_prefix g i2c columns lines st :
  exists k : nat, requested (events (__init__ C g i2c columns lines) st) = take k [4; 3; 2; 1; 0; 15; 13; 12; 11; 10; 9; 6; 7; 8; 14]%Z.
Proof.
  destruct (init_run g i2c columns lines st)
    as [(e & r0 & _ & Hev & _)
       | [(e & cls0 & cls & w1 & _ & _ & _ & Hev & _)
         | (cls0 & cls & mcp & w1 & w2 & Himp & Hg & Hcall & _)]].
  - rewrite Hev. by exists 0%nat.
  - rewrite Hev. by exists 0%nat.
  - destruct (init_reaches_pins g i2c columns lines st cls0 w1 cls mcp w2 Himp Hg Hcall)
      as [_ Hev].
    rewrite Hev. apply (init_pins_requests_prefix mcp columns lines).
Qed.


(** ** The button properties *)

(** C1. Each of the five button properties returns the negation of what
    its pin handle reads: a handle that reads [false] (low) gives [true],
    a handle that reads [true] gives [false]. *)
Theorem button_reads_active_low (b : button) (st : state) (p : Pin) (v : bool) (w : W) :
  self st !! button_attr b = Some (VPin p) ->
  co_value C p (world st) = (Return v, w) ->
  result (button_property C b) st = Return (negb v).
Proof.
  intros Hattr Hread. unfold result.
  rewrite (button_property_run b st p Hattr), Hread. reflexivity.
Qed.

(** C8. A button property is a query: one call makes exactly one read of
    its pin handle and nothing else (no write, no direction change, no
    attribute store), leaves the instance dictionary as it was, and a
    second call reads the handle again and answers from that new read. *)
Theorem button_property_is_query (b : button) (st : state) (p : Pin) :
  self st !! button_attr b = Some (VPin p) ->
  events (button_property C b) st = [EvRead p (co_value C p (world st)).1]
  /\ reads (events (button_property C b) st) = [p]
  /\ writes (events (button_property C b) st) = []
  /\ configured (events (button_property C b) st) = []
  /\ stored (events (button_property C b) st) = []
  /\ self (final (button_property C b) st) = self st
  /\ events (button_property C b) (final (button_property C b) st) =
       [EvRead p (co_value C p (world (final (button_property C b) st))).1]
  /\ result (button_property C b) (final (button_property C b) st) =
       outcome_map negb (co_value C p (world (final (button_property C b) st))).1.
Proof.
  intros Hattr.
  assert (Hself : self (final (button_property C b) st) = self st)
    by apply button_property_frame.
  assert (Hattr1 : self (final (button_property C b) st) !! button_attr b = Some (VPin p))
    by by rewrite Hself.
  split; [| split; [| split; [| split; [| split; [| split; [done | split]]]]]].
  1-5: unfold events; by rewrite (button_property_run b st p Hattr).
  - unfold events. by rewrite (button_property_run b _ p Hattr1).
  - unfold result. by rewrite (button_property_run b _ p Hattr1).
Qed.

(** C9. When the read of the pin handle raises, the button property
    raises the same exception (a [TransportError] stays a
    [TransportError]), after that single read attempt and without touching
    the instance dictionary. *)
Theorem button_read_error_propagates (b : button) (st : state) (p : Pin) (e : exn) (w : W) :
  self st !! button_attr b = Some (VPin p) ->
  co_value C p (world st) = (Raise e, w) ->
  result (button_property C b) st = Raise e
  /\ events (button_property C b) st = [EvRead p (Raise e)]
  /\ self (final (button_property C b) st) = self st.
Proof.
  intros Hattr Hread. unfold result, events, final.
  rewrite (button_property_run b st p Hattr), Hread. done.
Qed.

(** ** The constructor *)

(** C2. The constructor never returns in a namespace that does not bind
    the name it calls, and the module's own namespace is one: when the
    import succeeds it raises [NameError] for [MCP2317], otherwise it raises
    what the import raised; either way the only collaborator contacted is
    the import machinery, and no expander is created. *)
Theorem constructor_raises_NameError (g : gmap string pyobj) (i2c : Bus)
    (columns lines : Z) (st : state) :
  g !! "MCP2317" = None ->
  result (__init__ C g i2c columns lines) st =
    match (co_import C "adafruit_mcp230xx.mcp23017" "MCP23017" (world st)).1 with
    | Return _ => Raise (NameError "MCP2317")
    | Raise e => Raise e
    end
  /\ events (__init__ C g i2c columns lines) st =
       [EvImport "adafruit_mcp230xx.mcp23017" "MCP23017"
          (co_import C "adafruit_mcp230xx.mcp23017" "MCP23017" (world st)).1].
Proof.
  intros Hg.
  unfold result, events, __init__, bind, import_from, call, lift.
  destruct (co_import C _ _ (world st)) as [[cls0|e] w1]; cbn [fst snd]; [| done].
  assert (Hname : load_name (<["MCP23017":=cls0]> ∅) g "MCP2317"
                  = Raise (NameError "MCP2317")).
  { unfold load_name. rewrite Hg. reflexivity. }
  rewrite Hname. done.
Qed.

(** C3, as the code has it. The pin assignment is the same in every
    construction, under any namespace and in any world.  Every run of the constructor asks the
    expander for a prefix of the sequence 4, 3, 2, 1, 0, 15, 13, 12, 11, 10,
    9, 6, 7, 8, 14.  A run that returns, or that reaches the call of the
    base constructor whatever that call answers, has asked for pins 4, 3,
    2, 1, 0 and stored the handles as the left, up, down, right and select
    buttons, then asked for pins 15, 13, 12, 11, 10, 9, 6, 7, 8, 14 and
    passed those handles as the positional arguments of the base
    constructor in that order, with [columns] and [lines] in seventh and
    eighth place. *)
Theorem pin_assignment_fixed (g : gmap string pyobj) (i2c : Bus)
    (columns lines : Z) (st : state) :
  (exists k : nat, requested (events (__init__ C g i2c columns lines) st) = take k [4; 3; 2; 1; 0; 15; 13; 12; 11; 10; 9; 6; 7; 8; 14]%Z)
  /\ ((result (__init__ C g i2c columns lines) st) = Return tt \/ super_calls (events (__init__ C g i2c columns lines) st) <> [] ->
       exists cls0 cls mcp l u d r s a1 a2 a3 a4 a5 a6 a9 a10 a11 a12,
         (events (__init__ C g i2c columns lines) st) =
           [ EvImport "adafruit_mcp230xx.mcp23017" "MCP23017" (Return cls0);
             EvCall cls i2c (Return mcp);
             EvGetPin mcp 4 (Return l); EvSetAttr "_left_button" (VPin l);
        EvGetPin mcp 3 (Return u); EvSetAttr "_up_button" (VPin u);
        EvGetPin mcp 2 (Return d); EvSetAttr "_down_button" (VPin d);
        EvGetPin mcp 1 (Return r); EvSetAttr "_right_button" (VPin r);
        EvGetPin mcp 0 (Return s); EvSetAttr "_select_button" (VPin s);
        EvSetAttr "_buttons" (VList [VPin l; VPin u; VPin d; VPin r; VPin s]);
        EvGetPin mcp 15 (Return a1); EvGetPin mcp 13 (Return a2);
        EvGetPin mcp 12 (Return a3); EvGetPin mcp 11 (Return a4);
        EvGetPin mcp 10 (Return a5); EvGetPin mcp 9 (Return a6);
        EvGetPin mcp 6 (Return a9); EvGetPin mcp 7 (Return a10);
        EvGetPin mcp 8 (Return a11); EvGetPin mcp 14 (Return a12);
             EvSuperInit a1 a2 a3 a4 a5 a6 columns lines a9 a10 a11 a12
               (result (__init__ C g i2c columns lines) st) ]).
Proof.
  split; [apply init_requests_prefix | apply init_full_run].
Qed.




(** C6, as the code has it. No run of the constructor, under any
    namespace, acquires more than fifteen pin handles; a run that returns,
    or that reaches the call of the base constructor, has acquired exactly
    fifteen: the first five are stored as the button handles and the other
    ten are, in order, the pin arguments of the base constructor. *)
Theorem constructor_acquires_fifteen_handles (g : gmap string pyobj) (i2c : Bus)
    (columns lines : Z) (st : state) :
  length (acquired (events (__init__ C g i2c columns lines) st)) <= 15
  /\ ((result (__init__ C g i2c columns lines) st) = Return tt \/ super_calls (events (__init__ C g i2c columns lines) st) <> [] ->
       length (acquired (events (__init__ C g i2c columns lines) st)) = 15%nat
       /\ length (button_handles (events (__init__ C g i2c columns lines) st)) = 5%nat
       /\ length (forwarded (events (__init__ C g i2c columns lines) st)) = 10%nat
       /\ acquired (events (__init__ C g i2c columns lines) st) = button_handles (events (__init__ C g i2c columns lines) st) ++ forwarded (events (__init__ C g i2c columns lines) st)).
Proof.
  split.
  - destruct (init_run g i2c columns lines st)
      as [(e & r0 & _ & Hev & _)
         | [(e & cls0 & cls & w1 & _ & _ & _ & Hev & _)
           | (cls0 & cls & mcp & w1 & w2 & Himp & Hg & Hcall & _)]].
    + rewrite Hev. cbn. lia.
    + rewrite Hev. cbn. lia.
    + destruct (init_reaches_pins g i2c columns lines st cls0 w1 cls mcp w2 Himp Hg Hcall)
        as [_ Hev].
      rewrite Hev. apply (init_pins_acquires_at_most mcp columns lines).
  - intros Hreach.
    destruct (init_full_run g i2c columns lines st Hreach)
      as (cls0 & cls & mcp & l & u & d & r & s & a1 & a2 & a3 & a4 & a5 & a6 & a9 & a10 & a11 & a12 & Hev).
    rewrite Hev. repeat split; reflexivity.
Qed.

(** The fifteen roles are fifteen different roles. *)
Lemma all_roles_distinct : NoDup all_roles.
Proof.
  unfold all_roles.
  repeat (apply NoDup_cons_2;
            [rewrite ?elem_of_cons, elem_of_nil; intros Hin;
             repeat (destruct Hin as [Hin | Hin]; [discriminate Hin |]);
             exact Hin |]).
  apply NoDup_nil_2.
Qed.

(** No two roles are meant for the same pin index. *)
Lemma role_pin_injective rho1 rho2 n :
  role_pin rho1 = Some n -> role_pin rho2 = Some n -> rho1 = rho2.
Proof.
  intros H1 H2.
  destruct rho1 as [b1|k1], rho2 as [b2|k2].
  - destruct b1, b2; cbn in *; congruence.
  - destruct b1; do 13 (try destruct k2 as [|k2]); cbn in *; congruence.
  - destruct b2; do 13 (try destruct k1 as [|k1]); cbn in *; congruence.
  - do 13 (try destruct k1 as [|k1]); do 13 (try destruct k2 as [|k2]);
      cbn in *; congruence.
Qed.

(** C7. In a construction that returns each of the fifteen roles (the five
    buttons and the ten pin arguments of the base constructor) is given
    one handle, and that handle is the one the expander returned for the
    pin index of the role; no two roles have the same pin index.  On an
    expander that hands out a handle of its own for every request, a role
    is bound to no other index and no two roles are bound to one index.
    Afterwards no button property, on any instance and in any world,
    stores an attribute: the instance dictionary is left as it was. *)
Theorem pin_roles_static_and_distinct (g : gmap string pyobj) (i2c : Bus)
    (columns lines : Z) (st : state) :
  (result (__init__ C g i2c columns lines) st) = Return tt ->
  (role_handles (events (__init__ C g i2c columns lines) st)).*1 = all_roles
  /\ (forall rho, rho ∈ all_roles ->
       exists n, role_pin rho = Some n /\ bound (events (__init__ C g i2c columns lines) st) rho n)
  /\ (forall rho1 rho2 n,
       role_pin rho1 = Some n -> role_pin rho2 = Some n -> rho1 = rho2)
  /\ (NoDup (acquired (events (__init__ C g i2c columns lines) st)) ->
       (forall rho n, bound (events (__init__ C g i2c columns lines) st) rho n -> role_pin rho = Some n)
       /\ (forall rho1 rho2 n, bound (events (__init__ C g i2c columns lines) st) rho1 n -> bound (events (__init__ C g i2c columns lines) st) rho2 n -> rho1 = rho2))
  /\ (forall (b : button) (st' : state),
       self (final (button_property C b) st') = self st'
       /\ stored (events (button_property C b) st') = []).
Proof.
  intros Hret.
  destruct (init_full_run g i2c columns lines st (or_introl Hret))
    as (cls0 & cls & mcp & l & u & d & r & s & a1 & a2 & a3 & a4 & a5 & a6 & a9 & a10 & a11 & a12 & Hev).
  unfold bound. rewrite Hev.
  set (rh := role_handles _). set (ih := index_handles _).
  assert (Hrh : rh =
    [(ButtonRole Left, l); (ButtonRole Up, u); (ButtonRole Down, d);
     (ButtonRole Right, r); (ButtonRole Select, s);
     (BaseArg 1, a1); (BaseArg 2, a2); (BaseArg 3, a3); (BaseArg 4, a4);
     (BaseArg 5, a5); (BaseArg 6, a6); (BaseArg 9, a9); (BaseArg 10, a10);
     (BaseArg 11, a11); (BaseArg 12, a12)]) by reflexivity.
  assert (Hih : ih =
    [(4, l); (3, u); (2, d); (1, r); (0, s); (15, a1); (13, a2); (12, a3);
     (11, a4); (10, a5); (9, a6); (6, a9); (7, a10); (8, a11); (14, a12)]%Z)
    by reflexivity.
  assert (Hroles : rh.*1 = all_roles) by (rewrite Hrh; reflexivity).
  assert (Hmeant : forall rho, rho ∈ all_roles ->
            exists n, role_pin rho = Some n /\ exists h, (n, h) ∈ ih /\ (rho, h) ∈ rh).
  { intros rho Hrho. unfold all_roles in Hrho. rewrite Hrh, Hih.
    rewrite !elem_of_cons, elem_of_nil in Hrho.
    repeat (destruct Hrho as [-> | Hrho];
            [eexists; split; [reflexivity |]; eexists; split;
               [| repeat first [apply list_elem_of_here | apply list_elem_of_further]];
               repeat first [apply list_elem_of_here | apply list_elem_of_further] |]).
    destruct Hrho. }
  split; [exact Hroles |].
  split; [exact Hmeant |].
  split; [exact role_pin_injective |].
  split.
  - intros Hdistinct.
    assert (Hnd_roles : NoDup (rh.*1)) by (rewrite Hroles; apply all_roles_distinct).
    assert (Hnd_rh : NoDup (rh.*2)) by (rewrite Hrh; exact Hdistinct).
    assert (Hnd_ih : NoDup (ih.*2)) by (rewrite Hih; exact Hdistinct).
    assert (Hnd_idx : NoDup (ih.*1)) by (rewrite Hih; compute_done).
    clearbody rh ih.
    split.
    + intros rho n (h & Hi & Hr).
      assert (Hrho : rho ∈ all_roles).
      { rewrite <- Hroles. by apply (list_elem_of_fmap_2 fst rh (rho, h)). }
      destruct (Hmeant rho Hrho) as (n0 & Hpin & h0 & Hi0 & Hr0).
      assert (h = h0) as -> by exact (pairs_functional rh rho h h0 Hnd_roles Hr Hr0).
      by rewrite (pairs_injective ih n n0 h0 Hnd_ih Hi Hi0).
    + intros rho1 rho2 n (h1 & Hi1 & Hr1) (h2 & Hi2 & Hr2).
      assert (h1 = h2) as -> by exact (pairs_functional ih n h1 h2 Hnd_idx Hi1 Hi2).
      exact (pairs_injective rh rho1 rho2 h2 Hnd_rh Hr1 Hr2).
  - intros b st'. destruct (button_property_frame b st') as (? & ? & _). done.
Qed.


(** ** Further properties of the constructor and the button properties *)

(** X1. A button property called on an instance that lacks its attribute
    raises [AttributeError] for that attribute, contacts no collaborator
    and leaves instance and world as they were. *)
Theorem button_without_attribute (b : button) (st : state) :
  self st !! button_attr b = None ->
  button_property C b st = (Raise (AttributeError (button_attr b)), st, []).
Proof.
  intros Hattr.
  destruct b; cbn in Hattr;
    unfold button_property, left_button, up_button, down_button,
      right_button, select_button, bind, getattr;
    rewrite Hattr; reflexivity.
Qed.

(** X2. The constructor body does not undo its stores.  In every run the
    attributes stored are a prefix of [_left_button], [_up_button],
    [_down_button], [_right_button], [_select_button], [_buttons]; the
    button handles stored are the first five handles acquired; and when
    the base constructor was not reached the run has raised and the
    instance dictionary is the initial one with every store of the run
    applied. *)
Theorem failed_construction_keeps_stores (mcp : Expander) (columns lines : Z) (st : state) :
  (exists k : nat,
     (stored (events (init_pins C mcp columns lines) st)).*1 =
       take k ["_left_button"; "_up_button"; "_down_button"; "_right_button";
               "_select_button"; "_buttons"])
  /\ button_handles (events (init_pins C mcp columns lines) st) =
       take 5 (acquired (events (init_pins C mcp columns lines) st))
  /\ (super_calls (events (init_pins C mcp columns lines) st) = [] ->
       (exists e, result (init_pins C mcp columns lines) st = Raise e)
       /\ self (final (init_pins C mcp columns lines) st) =
            apply_stores (stored (events (init_pins C mcp columns lines) st)) (self st)).
Proof.
  walk_init;
    (split;
      [ first [ by exists 0%nat | by exists 1%nat | by exists 2%nat
              | by exists 3%nat | by exists 4%nat | by exists 5%nat
              | by exists 6%nat ] |]);
    (split; [reflexivity |]);
    intros Hsuper; first [discriminate Hsuper | split; [eauto | reflexivity]].
Qed.

(** The instance dictionary after a run that returns, where the base
    constructor has left attribute [a] alone. *)
Lemma built_attribute mcp columns lines st (a : string) :
  result (init_pins C mcp columns lines) st = Return tt ->
  (forall d a1 a2 a3 a4 a5 a6 c l a9 a10 a11 a12 w,
     (co_super_init C d a1 a2 a3 a4 a5 a6 c l a9 a10 a11 a12 w).1.2 !! a = d !! a) ->
  self (final (init_pins C mcp columns lines) st) !! a =
    apply_stores (stored (events (init_pins C mcp columns lines) st)) (self st) !! a.
Proof.
  intros Hret Hpres. revert Hret.
  walk_init; try discriminate.
  intros _.
  match goal with
  | H : co_super_init C ?D ?a1 ?a2 ?a3 ?a4 ?a5 ?a6 ?c ?l ?a9 ?a10 ?a11 ?a12 ?w = _ |- _ =>
      specialize (Hpres D a1 a2 a3 a4 a5 a6 c l a9 a10 a11 a12 w);
      rewrite H in Hpres
  end.
  exact Hpres.
Qed.

(** X3. Constructor and property together.  After a run of lines 89 to 109
    that returns, if the base constructor left the attribute of button [b]
    alone, that attribute holds the handle the expander returned for pin
    [button_pin b] (4, 3, 2, 1, 0 for left, up, down, right, select), and
    the property of [b] makes one read of that handle and returns the
    negation of what it reads. *)
Theorem built_button_reads_its_pin (mcp : Expander) (columns lines : Z) (st : state)
    (b : button) :
  result (init_pins C mcp columns lines) st = Return tt ->
  (forall d a1 a2 a3 a4 a5 a6 c l a9 a10 a11 a12 w,
     (co_super_init C d a1 a2 a3 a4 a5 a6 c l a9 a10 a11 a12 w).1.2 !! button_attr b =
       d !! button_attr b) ->
  exists p : Pin,
    EvGetPin mcp (button_pin b) (Return p) ∈ events (init_pins C mcp columns lines) st
    /\ self (final (init_pins C mcp columns lines) st) !! button_attr b = Some (VPin p)
    /\ events (button_property C b) (final (init_pins C mcp columns lines) st) =
         [EvRead p (co_value C p (world (final (init_pins C mcp columns lines) st))).1]
    /\ result (button_property C b) (final (init_pins C mcp columns lines) st) =
         outcome_map negb
           (co_value C p (world (final (init_pins C mcp columns lines) st))).1.
Proof.
  intros Hret Hpres.
  pose proof (built_attribute mcp columns lines st (button_attr b) Hret Hpres) as Hattr.
  destruct (init_pins_returns _ _ _ _ Hret)
    as (l & u & d & r & s & a1 & a2 & a3 & a4 & a5 & a6 & a9 & a10 & a11 & a12 & Hev).
  assert (Hp : forall p : Pin,
    apply_stores (stored (events (init_pins C mcp columns lines) st)) (self st)
      !! button_attr b = Some (VPin p) ->
    self (final (init_pins C mcp columns lines) st) !! button_attr b = Some (VPin p)).
  { intros p Hp. by rewrite Hattr. }
  rewrite Hev in Hp |- *.
  assert (Hread : forall p : Pin,
    self (final (init_pins C mcp columns lines) st) !! button_attr b = Some (VPin p) ->
    events (button_property C b) (final (init_pins C mcp columns lines) st) =
      [EvRead p (co_value C p (world (final (init_pins C mcp columns lines) st))).1]
    /\ result (button_property C b) (final (init_pins C mcp columns lines) st) =
         outcome_map negb
           (co_value C p (world (final (init_pins C mcp columns lines) st))).1).
  { intros p Hattr'. unfold events, result.
    by rewrite (button_property_run b _ p Hattr'). }
  clear Hattr Hev Hpres Hret.
  destruct b; [exists l | exists u | exists d | exists r | exists s];
    (split; [cbn; rewrite !elem_of_cons; tauto |]);
    match goal with
    | |- _ !! _ = Some (VPin ?p) /\ _ =>
        assert (Hattr' : self (final (init_pins C mcp columns lines) st) !! _ = Some (VPin p))
          by (apply Hp; cbn; rewrite ?lookup_insert_ne by discriminate;
              apply lookup_insert_eq);
        exact (conj Hattr' (Hread p Hattr'))
    end.
Qed.

(** X4. After a run of lines 89 to 109 that returns, if the base
    constructor left the six attributes alone, [_buttons] is the list of
    the five button handles in the order left, up, down, right, select:
    the very handles held by the five button attributes, which are the
    first five handles the expander returned. *)
Theorem buttons_list_holds_button_handles (mcp : Expander) (columns lines : Z) (st : state) :
  result (init_pins C mcp columns lines) st = Return tt ->
  (forall a d a1 a2 a3 a4 a5 a6 c l a9 a10 a11 a12 w,
     a ∈ ["_left_button"; "_up_button"; "_down_button"; "_right_button";
          "_select_button"; "_buttons"] ->
     (co_super_init C d a1 a2 a3 a4 a5 a6 c l a9 a10 a11 a12 w).1.2 !! a = d !! a) ->
  exists l u d r s : Pin,
    take 5 (acquired (events (init_pins C mcp columns lines) st)) = [l; u; d; r; s]
    /\ self (final (init_pins C mcp columns lines) st) !! "_left_button" = Some (VPin l)
    /\ self (final (init_pins C mcp columns lines) st) !! "_up_button" = Some (VPin u)
    /\ self (final (init_pins C mcp columns lines) st) !! "_down_button" = Some (VPin d)
    /\ self (final (init_pins C mcp columns lines) st) !! "_right_button" = Some (VPin r)
    /\ self (final (init_pins C mcp columns lines) st) !! "_select_button" = Some (VPin s)
    /\ self (final (init_pins C mcp columns lines) st) !! "_buttons" =
         Some (VList [VPin l; VPin u; VPin d; VPin r; VPin s]).
Proof.
  intros Hret Hpres.
  assert (Hat : forall a,
    a ∈ ["_left_button"; "_up_button"; "_down_button"; "_right_button";
         "_select_button"; "_buttons"] ->
    self (final (init_pins C mcp columns lines) st) !! a =
      apply_stores (stored (events (init_pins C mcp columns lines) st)) (self st) !! a).
  { intros a Ha. apply built_attribute; [exact Hret |]. intros. by apply Hpres. }
  destruct (init_pins_returns _ _ _ _ Hret)
    as (l & u & d & r & s & a1 & a2 & a3 & a4 & a5 & a6 & a9 & a10 & a11 & a12 & Hev).
  rewrite Hev in Hat |- *.
  exists l, u, d, r, s.
  split; [reflexivity |].
  repeat split;
    (rewrite Hat by (rewrite !elem_of_cons; tauto));
    cbn; rewrite ?lookup_insert_ne by discriminate; apply lookup_insert_eq.
Qed.

(** X5. The geometry has no influence on the pins.  Two runs of the
    constructor body from the same state with different [columns] and
    [lines] request the same indices, acquire the same handles, make the
    same stores and forward the same handles; only the geometry in the
    base call differs. *)
Theorem pins_independent_of_geometry (mcp : Expander) (c1 l1 c2 l2 : Z) (st : state) :
  requested (events (init_pins C mcp c1 l1) st) = requested (events (init_pins C mcp c2 l2) st)
  /\ acquired (events (init_pins C mcp c1 l1) st) = acquired (events (init_pins C mcp c2 l2) st)
  /\ stored (events (init_pins C mcp c1 l1) st) = stored (events (init_pins C mcp c2 l2) st)
  /\ forwarded (events (init_pins C mcp c1 l1) st) = forwarded (events (init_pins C mcp c2 l2) st)
  /\ (super_calls (events (init_pins C mcp c1 l1) st)).*1 =
       (fun x => (c1, l1)) <$> super_calls (events (init_pins C mcp c2 l2) st).
Proof.
  walk_init; repeat split; reflexivity.
Qed.

(** X6. Which class the constructor instantiates is decided by the binding
    of the name [MCP2317] in the global namespace, not by the import: in a
    namespace that binds it to [cls], after the import has returned, the
    constructor calls [cls] with [i2c]; if that call returns an expander
    the construction continues as lines 89 to 109 on it, and if it raises,
    the construction raises the same exception without requesting a pin or
    storing an attribute. *)
Theorem constructor_calls_bound_name (g : gmap string pyobj) (i2c : Bus)
    (columns lines : Z) (st : state) (cls0 cls : pyobj) (w1 : W) :
  co_import C "adafruit_mcp230xx.mcp23017" "MCP23017" (world st) = (Return cls0, w1) ->
  g !! "MCP2317" = Some cls ->
  (forall mcp w2, co_call C cls i2c w1 = (Return mcp, w2) ->
     result (__init__ C g i2c columns lines) st =
       result (init_pins C mcp columns lines) {| self := self st; world := w2 |}
     /\ events (__init__ C g i2c columns lines) st =
          EvImport "adafruit_mcp230xx.mcp23017" "MCP23017" (Return cls0)
          :: EvCall cls i2c (Return mcp)
          :: events (init_pins C mcp columns lines) {| self := self st; world := w2 |})
  /\ (forall e w2, co_call C cls i2c w1 = (Raise e, w2) ->
       result (__init__ C g i2c columns lines) st = Raise e
       /\ events (__init__ C g i2c columns lines) st =
            [EvImport "adafruit_mcp230xx.mcp23017" "MCP23017" (Return cls0);
             EvCall cls i2c (Raise e)]
       /\ self (final (__init__ C g i2c columns lines) st) = self st).
Proof.
  intros Himp Hg. split.
  - intros mcp w2 Hcall. by apply (init_reaches_pins g i2c columns lines st cls0 w1 cls mcp w2).
  - intros e w2 Hcall.
    unfold result, events, final, __init__, bind, import_from, call_class, call, lift.
    rewrite Himp. cbn [fst snd world self].
    assert (Hname : load_name (<["MCP23017":=cls0]> ∅) g "MCP2317" = Return cls).
    { unfold load_name. rewrite Hg. reflexivity. }
    rewrite Hname. cbn [fst snd world self]. rewrite Hcall. done.
Qed.

(** X7. On any instance and in any world (attribute absent, a list, or a
    pin handle) a button property makes at most one read and nothing else:
    it requests no pin from the expander, stores, writes and configures
    nothing and does not call the base constructor; and when it returns a
    boolean, that boolean is the negation of what its one read returned. *)
Theorem button_property_footprint (b : button) (st : state) :
  length (events (button_property C b) st) <= 1
  /\ length (reads (events (button_property C b) st)) =
       length (events (button_property C b) st)
  /\ requested (events (button_property C b) st) = []
  /\ super_calls (events (button_property C b) st) = []
  /\ self (final (button_property C b) st) = self st
  /\ (forall v : bool, result (button_property C b) st = Return v ->
       exists p : Pin,
         self st !! button_attr b = Some (VPin p)
         /\ events (button_property C b) st = [EvRead p (Return (negb v))]).
Proof.
  unfold final, events, result.
  destruct b;
    unfold button_property, left_button, up_button, down_button,
      right_button, select_button, bind, getattr, value, call, ret, raise;
    (destruct (self st !! _) as [[p|l]|]; cbn;
       [| repeat split; [lia | discriminate] | repeat split; [lia | discriminate]]);
    (destruct (co_value C p (world st)) as [[v0|e] w]; cbn;
       (repeat split; [lia | ]);
       intros v Hv; [| discriminate Hv]);
    injection Hv as <-; exists p; by rewrite negb_involutive.
Qed.

End DriverFacts.

(** ** The theorems at work on the simulated shield *)

Import Shield.

(** With pin 4 low, the left button reads pressed. *)
Lemma button_reads_active_low_witness :
  self (built left_pressed) !! button_attr Left = Some (VPin 4%Z)
  /\ co_value plate 4%Z (world (built left_pressed)) = (Return false, left_pressed)
  /\ result (button_property plate Left) (built left_pressed) = Return true.
Proof.
  split; [reflexivity |]. split; [reflexivity |].
  apply (button_reads_active_low plate Left (built left_pressed) 4%Z false left_pressed);
    reflexivity.
Defined.

(** Polling the select button reads pin 0 once and changes nothing. *)
Lemma button_property_is_query_witness :
  self (built idle) !! button_attr Select = Some (VPin 0%Z)
  /\ reads (events (button_property plate Select) (built idle)) = [0%Z]
  /\ writes (events (button_property plate Select) (built idle)) = []
  /\ self (final (button_property plate Select) (built idle)) = self (built idle).
Proof.
  split; [reflexivity |].
  destruct (button_property_is_query plate Select (built idle) 0%Z eq_refl)
    as (_ & Hreads & Hwrites & _ & _ & Hself & _).
  exact (conj Hreads (conj Hwrites Hself)).
Defined.

(** On the failing bus the caller of the up button sees the bus error. *)
Lemma button_read_error_propagates_witness :
  self (built idle) !! button_attr Up = Some (VPin 3%Z)
  /\ co_value broken_bus 3%Z (world (built idle)) = (Raise TransportError, idle)
  /\ result (button_property broken_bus Up) (built idle) = Raise TransportError
  /\ events (button_property broken_bus Up) (built idle) = [EvRead 3%Z (Raise TransportError)]
  /\ self (final (button_property broken_bus Up) (built idle)) = self (built idle).
Proof.
  split; [reflexivity |]. split; [reflexivity |].
  apply (button_read_error_propagates broken_bus Up (built idle) 3%Z TransportError idle);
    reflexivity.
Defined.

(** The documented call [Character_LCD_RGB_I2C(i2c, 16, 2)] under the
    module's namespace. *)
Lemma constructor_raises_NameError_witness :
  module_globals !! "MCP2317" = None
  /\ result (__init__ plate module_globals tt 16 2) (fresh idle) = Raise (NameError "MCP2317")
  /\ events (__init__ plate module_globals tt 16 2) (fresh idle) =
       [EvImport "adafruit_mcp230xx.mcp23017" "MCP23017" (Return (PyClass "MCP23017"))].
Proof.
  split; [reflexivity |].
  apply (constructor_raises_NameError plate module_globals tt 16 2 (fresh idle)).
  reflexivity.
Defined.

(** The constructor with the name it reads bound by hand, on the
    simulated shield, for a 16 by 2 display. *)
Lemma pin_assignment_fixed_witness :
  (result (__init__ plate patched_globals tt 16 2) (fresh idle)) = Return tt
  /\ exists cls0 cls mcp l u d r s a1 a2 a3 a4 a5 a6 a9 a10 a11 a12,
       (events (__init__ plate patched_globals tt 16 2) (fresh idle)) =
         [ EvImport "adafruit_mcp230xx.mcp23017" "MCP23017" (Return cls0);
           EvCall cls tt (Return mcp);
           EvGetPin mcp 4 (Return l); EvSetAttr "_left_button" (VPin l);
           EvGetPin mcp 3 (Return u); EvSetAttr "_up_button" (VPin u);
           EvGetPin mcp 2 (Return d); EvSetAttr "_down_button" (VPin d);
           EvGetPin mcp 1 (Return r); EvSetAttr "_right_button" (VPin r);
           EvGetPin mcp 0 (Return s); EvSetAttr "_select_button" (VPin s);
           EvSetAttr "_buttons" (VList [VPin l; VPin u; VPin d; VPin r; VPin s]);
           EvGetPin mcp 15 (Return a1); EvGetPin mcp 13 (Return a2);
           EvGetPin mcp 12 (Return a3); EvGetPin mcp 11 (Return a4);
           EvGetPin mcp 10 (Return a5); EvGetPin mcp 9 (Return a6);
           EvGetPin mcp 6 (Return a9); EvGetPin mcp 7 (Return a10);
           EvGetPin mcp 8 (Return a11); EvGetPin mcp 14 (Return a12);
           EvSuperInit a1 a2 a3 a4 a5 a6 16 2 a9 a10 a11 a12
             (result (__init__ plate patched_globals tt 16 2) (fresh idle)) ].
Proof.
  split; [reflexivity |].
  apply (proj2 (pin_assignment_fixed plate patched_globals tt 16 2 (fresh idle))).
  left. reflexivity.
Defined.

(** C3, refuted as stated: behind an eight-pin expander the constructor
    stops at the request for pin 15, so no pin is passed to the base
    constructor, and under the module's own namespace not even the button
    pins are requested. *)
Lemma pins_not_passed_in_every_construction :
  requested (events (__init__ eight_pins patched_globals tt 16 2) (fresh idle)) = [4; 3; 2; 1; 0; 15]%Z
  /\ super_calls (events (__init__ eight_pins patched_globals tt 16 2) (fresh idle)) = []
  /\ ~ (forwarded (events (__init__ eight_pins patched_globals tt 16 2) (fresh idle)) = [15; 13; 12; 11; 10; 9; 6; 7; 8; 14]%Z)
  /\ ~ (take 5 (requested (events (__init__ plate module_globals tt 16 2) (fresh idle)))
        = [4; 3; 2; 1; 0]%Z).
Proof.
  split; [reflexivity |]. split; [reflexivity |]. split.
  - intros Hfwd. vm_compute in Hfwd. discriminate Hfwd.
  - intros Hreq. vm_compute in Hreq. discriminate Hreq.
Qed.





(** Fifteen handles, five of them buttons and ten forwarded. *)
Lemma constructor_acquires_fifteen_handles_witness :
  (result (__init__ plate patched_globals tt 16 2) (fresh idle)) = Return tt
  /\ length (acquired (events (__init__ plate patched_globals tt 16 2) (fresh idle))) = 15%nat
  /\ length (button_handles (events (__init__ plate patched_globals tt 16 2) (fresh idle))) = 5%nat
  /\ length (forwarded (events (__init__ plate patched_globals tt 16 2) (fresh idle))) = 10%nat
  /\ acquired (events (__init__ plate patched_globals tt 16 2) (fresh idle)) = button_handles (events (__init__ plate patched_globals tt 16 2) (fresh idle)) ++ forwarded (events (__init__ plate patched_globals tt 16 2) (fresh idle)).
Proof.
  split; [reflexivity |].
  apply (proj2 (constructor_acquires_fifteen_handles plate patched_globals tt 16 2
                  (fresh idle))).
  left. reflexivity.
Defined.

(** C6, refuted as stated: the constructor that returns on the simulated
    shield has acquired fifteen handles, not twelve, and forwarded ten of
    them, not seven; the constructor under the module's own namespace
    acquires none. *)
Lemma twelve_handles_refuted :
  (result (__init__ plate patched_globals tt 16 2) (fresh idle)) = Return tt
  /\ ~ (length (acquired (events (__init__ plate patched_globals tt 16 2) (fresh idle))) = 12%nat /\ length (forwarded (events (__init__ plate patched_globals tt 16 2) (fresh idle))) = 7%nat)
  /\ length (acquired (events (__init__ plate module_globals tt 16 2) (fresh idle)))
       <> 12%nat.
Proof.
  split; [reflexivity |]. split.
  - intros [Hacq _]. vm_compute in Hacq. discriminate Hacq.
  - intros Hacq. vm_compute in Hacq. discriminate Hacq.
Qed.

(** On the simulated shield every handle is the index it was returned
    for, so the fifteen handles are distinct and the fifteen roles use
    fifteen different pins. *)
Lemma pin_roles_static_and_distinct_witness :
  (result (__init__ plate patched_globals tt 16 2) (fresh idle)) = Return tt
  /\ NoDup (acquired (events (__init__ plate patched_globals tt 16 2) (fresh idle)))
  /\ (role_handles (events (__init__ plate patched_globals tt 16 2) (fresh idle))).*1 = all_roles
  /\ (forall rho, rho ∈ all_roles ->
       exists n, role_pin rho = Some n /\ bound (events (__init__ plate patched_globals tt 16 2) (fresh idle)) rho n)
  /\ (forall rho1 rho2 n, bound (events (__init__ plate patched_globals tt 16 2) (fresh idle)) rho1 n -> bound (events (__init__ plate patched_globals tt 16 2) (fresh idle)) rho2 n -> rho1 = rho2)
  /\ self (final (button_property plate Left) (built left_pressed)) =
       self (built left_pressed).
Proof.
  assert (Hnd : NoDup (acquired (events (__init__ plate patched_globals tt 16 2) (fresh idle)))) by (vm_compute; compute_done).
  split; [reflexivity |]. split; [exact Hnd |].
  destruct (pin_roles_static_and_distinct plate patched_globals tt 16 2 (fresh idle)
              eq_refl)
    as (Hroles & Hmeant & _ & Hdistinct & Hstatic).
  exact (conj Hroles (conj Hmeant (conj (proj2 (Hdistinct Hnd))
           (proj1 (Hstatic Left (built left_pressed)))))).
Defined.



(** ** The further properties on the simulated shield *)

(** Polling a button of an instance on which the constructor never ran. *)
Lemma button_without_attribute_witness :
  self (fresh idle) !! button_attr Down = None
  /\ button_property plate Down (fresh idle) =
       (Raise (AttributeError "_down_button"), fresh idle, []).
Proof.
  split; [reflexivity |].
  apply (button_without_attribute plate Down (fresh idle)). reflexivity.
Defined.

(** Behind an eight-pin expander the request for pin 15 fails: the six
    attributes stored before it stay on the instance. *)
Lemma failed_construction_keeps_stores_witness :
  super_calls (events (init_pins eight_pins tt 16 2) (fresh idle)) = []
  /\ result (init_pins eight_pins tt 16 2) (fresh idle) = Raise (OtherError "AssertionError")
  /\ self (final (init_pins eight_pins tt 16 2) (fresh idle)) !! "_left_button" =
       Some (VPin 4%Z)
  /\ self (final (init_pins eight_pins tt 16 2) (fresh idle)) =
       apply_stores (stored (events (init_pins eight_pins tt 16 2) (fresh idle)))
         (self (fresh idle)).
Proof.
  split; [reflexivity |]. split; [reflexivity |]. split; [reflexivity |].
  destruct (failed_construction_keeps_stores eight_pins tt 16 2 (fresh idle))
    as (_ & _ & Hkeep).
  exact (proj2 (Hkeep eq_refl)).
Defined.

(** On the simulated shield the right button is pin 1. *)
Lemma built_button_reads_its_pin_witness :
  result (init_pins plate tt 16 2) (fresh idle) = Return tt
  /\ exists p : Z,
       EvGetPin tt (button_pin Right) (Return p) ∈ events (init_pins plate tt 16 2) (fresh idle)
       /\ self (final (init_pins plate tt 16 2) (fresh idle)) !! button_attr Right =
            Some (VPin p)
       /\ events (button_property plate Right) (final (init_pins plate tt 16 2) (fresh idle)) =
            [EvRead p
               (co_value plate p (world (final (init_pins plate tt 16 2) (fresh idle)))).1]
       /\ result (button_property plate Right) (final (init_pins plate tt 16 2) (fresh idle)) =
            outcome_map negb
              (co_value plate p (world (final (init_pins plate tt 16 2) (fresh idle)))).1.
Proof.
  split; [reflexivity |].
  apply (built_button_reads_its_pin plate tt 16 2 (fresh idle) Right); [reflexivity |].
  intros. reflexivity.
Defined.

(** The button list of the instance built on the simulated shield. *)
Lemma buttons_list_holds_button_handles_witness :
  result (init_pins plate tt 16 2) (fresh idle) = Return tt
  /\ exists l u d r s : Z,
       take 5 (acquired (events (init_pins plate tt 16 2) (fresh idle))) = [l; u; d; r; s]
       /\ self (final (init_pins plate tt 16 2) (fresh idle)) !! "_left_button" = Some (VPin l)
       /\ self (final (init_pins plate tt 16 2) (fresh idle)) !! "_up_button" = Some (VPin u)
       /\ self (final (init_pins plate tt 16 2) (fresh idle)) !! "_down_button" = Some (VPin d)
       /\ self (final (init_pins plate tt 16 2) (fresh idle)) !! "_right_button" = Some (VPin r)
       /\ self (final (init_pins plate tt 16 2) (fresh idle)) !! "_select_button" = Some (VPin s)
       /\ self (final (init_pins plate tt 16 2) (fresh idle)) !! "_buttons" =
            Some (VList [VPin l; VPin u; VPin d; VPin r; VPin s]).
Proof.
  split; [reflexivity |].
  apply (buttons_list_holds_button_handles plate tt 16 2 (fresh idle)); [reflexivity |].
  intros. reflexivity.
Defined.

(** With the name bound by hand: the construction goes through on the
    simulated shield, and fails with the bus error where no expander
    answers. *)
Lemma constructor_calls_bound_name_witness :
  co_import plate "adafruit_mcp230xx.mcp23017" "MCP23017" (world (fresh idle)) =
    (Return (PyClass "MCP23017"), idle)
  /\ patched_globals !! "MCP2317" = Some (PyClass "MCP23017")
  /\ co_call plate (PyClass "MCP23017") tt idle = (Return tt, idle)
  /\ co_call no_expander (PyClass "MCP23017") tt idle = (Raise TransportError, idle)
  /\ result (__init__ plate patched_globals tt 16 2) (fresh idle) =
       result (init_pins plate tt 16 2) {| self := self (fresh idle); world := idle |}
  /\ result (__init__ no_expander patched_globals tt 16 2) (fresh idle) = Raise TransportError.
Proof.
  split; [reflexivity |]. split; [reflexivity |].
  split; [reflexivity |]. split; [reflexivity |].
  split.
  - exact (proj1 (proj1 (constructor_calls_bound_name plate patched_globals tt 16 2
                           (fresh idle) (PyClass "MCP23017") (PyClass "MCP23017") idle
                           eq_refl eq_refl) tt idle eq_refl)).
  - exact (proj1 (proj2 (constructor_calls_bound_name no_expander patched_globals tt 16 2
                           (fresh idle) (PyClass "MCP23017") (PyClass "MCP23017") idle
                           eq_refl eq_refl) TransportError idle eq_refl)).
Defined.

(** The pressed left button: the answer [true] comes from one read of
    pin 4 that returned [false]. *)
Lemma button_property_footprint_witness :
  result (button_property plate Left) (built left_pressed) = Return true
  /\ exists p : Z,
       self (built left_pressed) !! button_attr Left = Some (VPin p)
       /\ events (button_property plate Left) (built left_pressed) =
            [EvRead p (Return (negb true))].
Proof.
  split; [reflexivity |].
  destruct (button_property_footprint plate Left (built left_pressed))
    as (_ & _ & _ & _ & _ & Hret).
  exact (Hret true eq_refl).
Defined.
